(** * EMLL model compiler: the driver base class of Compiler.cpp

    A shallow embedding of [emll::compiler::Compiler] and of the static
    helpers of [ModelEx] (libraries/compiler/src/Compiler.cpp), together
    with the properties of the design document that concern them.

    Conventions.
    - A [const model::Node*] is rendered by the node it points to: the
      model is read-only while the compiler runs.
    - [uint64_t] is a [Z] kept in [0, 2^64) with the wrap-around written
      out.
    - A member function that can throw is a computation in the monad
      [M]: it takes the object, and returns either a value or the thrown
      [CompilerError], with the object as the call left it (what a C++
      exception leaves behind: the writes done before the throw stay).
    - The pure virtual hooks of the class ([BeginMain], [EndMain],
      [Compile]) are the methods of the type class [Backend]. *)

From Stdlib Require Import ZArith Lia.
From stdpp Require Import base option list strings gmap.

Local Open Scope Z_scope.

(** ** Enumerations named by Compiler.cpp *)

(** [CompilerError] (CompilerException.h): the three enumerators that
    Compiler.cpp throws. *)
Inductive CompilerError : Type :=
  | notSupported
  | inputPortTypeNotSupported
  | outputPortTypeNotSupported.

#[global] Instance CompilerError_eq_dec : EqDecision CompilerError.
Proof. solve_decision. Defined.

(** [Compiler::NodeType]: the dispatch kinds the type table maps to. *)
Inductive NodeType : Type :=
  | input
  | constant
  | binaryOp.

#[global] Instance NodeType_eq_dec : EqDecision NodeType.
Proof. solve_decision. Defined.

(** [DataNodeType]: the enumeration is declared in a header, not in
    Compiler.cpp, which names one enumerator, [Literal], and
    sends every other one to the [default] branch.  The others are kept
    as numbered tags. *)
Inductive DataNodeType : Type :=
  | Literal
  | OtherDataNodeType (tag : positive).

#[global] Instance DataNodeType_eq_dec : EqDecision DataNodeType.
Proof. solve_decision. Defined.

(** ** The model graph, as the compiler reads it *)

(** [model::Port]: the compiler only reads [GetType()]. *)
Record Port (PortType : Type) : Type := mkPort {
  GetType : PortType
}.
Arguments mkPort {PortType} _.
Arguments GetType {PortType} _.

(** The identity of a C++ class as [typeid] reports it: two [type_info]
    are equal exactly when they denote the same class, which is rendered
    by the qualified name of the class. *)
Definition type_info : Type := string.

Definition typeid_InputNode_double : type_info := "model::InputNode<double>".
Definition typeid_InputNode_int : type_info := "model::InputNode<int>".

(** [model::Node], with the four observations Compiler.cpp makes of it
    and its dynamic class.  [node_id] stands for the address of the
    node; the dependents are held by address. *)
Record Node (PortType : Type) : Type := mkNode {
  node_id : N;
  typeid : type_info;
  GetRuntimeTypeName : string;
  GetInputPorts : list (Port PortType);
  GetOutputPorts : list (Port PortType);
  GetDependentNodes : list N
}.
Arguments mkNode {PortType} _ _ _ _ _ _.
Arguments node_id {PortType} _.
Arguments typeid {PortType} _.
Arguments GetRuntimeTypeName {PortType} _.
Arguments GetInputPorts {PortType} _.
Arguments GetOutputPorts {PortType} _.
Arguments GetDependentNodes {PortType} _.

(** Modelled from the spec: [model::Model] and [Model::Visit] are
    declared outside Compiler.cpp.  The model "exposes a
    dependency-respecting visitation" that yields every node once; it is
    rendered by the list of its nodes in visitation order, and [Visit]
    runs the visitor over that list, threading what the visitor's
    closure captures by reference. *)
Record Model (PortType : Type) : Type := mkModel {
  visit_order : list (Node PortType)
}.
Arguments mkModel {PortType} _.
Arguments visit_order {PortType} _.

Definition Visit {PortType S : Type} (model : Model PortType)
    (visitor : Node PortType → S → S) (captured : S) : S :=
  foldl (λ acc node, visitor node acc) captured (visit_order model).

(** [DataNode]: the class is declared elsewhere; [CompileNode] reads its
    [Type()] and hands the node to the literal lowering. *)
Record DataNode : Type := mkDataNode {
  Type_ : DataNodeType;
  data_id : N
}.

(** ** ModelEx: graph analysis *)

Section ModelEx.
Context {PortType : Type}.

(** [ModelEx::IsLeafNode] *)
Definition IsLeafNode (node : Node PortType) : bool :=
  bool_decide (length (GetDependentNodes node) = 0%nat).

(** [ModelEx::CollectNodes]: the visitor pushes every node that
    satisfies the predicate at the back of [matches]. *)
Definition CollectNodes (model : Model PortType)
    (predicate : Node PortType → bool) : list (Node PortType) :=
  Visit model
    (λ node matches, if predicate node then matches ++ [node] else matches)
    [].

(** [ModelEx::CollectOutputNodes]: the local [findNodes] of the source
    is never used; the predicate passed on is [IsLeafNode]. *)
Definition CollectOutputNodes (model : Model PortType) : list (Node PortType) :=
  CollectNodes model (λ node, IsLeafNode node).

(** [ModelEx::CollectInputNodes]: [findNodes] compares the dynamic
    class of the node with the two input-node classes. *)
Definition findNodes (node : Node PortType) : bool :=
  bool_decide (typeid node = typeid_InputNode_double)
  || bool_decide (typeid node = typeid_InputNode_int).

Definition CollectInputNodes (model : Model PortType) : list (Node PortType) :=
  CollectNodes model findNodes.

(** [ModelEx::GetNodeDataType]: [GetOutputPorts()[0]] is an unchecked
    [operator[]]; [None] stands for the read past the end of an empty
    vector, where C++ defines no result. *)
Definition GetNodeDataType (node : Node PortType) : option PortType :=
  GetType <$> (GetOutputPorts node !! 0%nat).

End ModelEx.

(** ** Member functions that may throw *)

(** What a call leaves: the value it returned, or the error it threw. *)
Inductive Outcome (A : Type) : Type :=
  | Returned (a : A)
  | Thrown (e : CompilerError).
Arguments Returned {A} _.
Arguments Thrown {A} _.

(** A member function of an object of type [St]. *)
Definition M (St A : Type) : Type := St → Outcome A * St.

#[global] Instance M_ret {St : Type} : MRet (M St) :=
  λ A a st, (Returned a, st).

#[global] Instance M_bind {St : Type} : MBind (M St) :=
  λ A B k m st,
    match m st with
    | (Returned a, st') => k a st'
    | (Thrown e, st') => (Thrown e, st')
    end.

Definition throw {St A : Type} (e : CompilerError) : M St A :=
  λ st, (Thrown e, st).

(** An assignment to a data member. *)
Definition modify {St : Type} (f : St → St) : M St unit :=
  λ st, (Returned tt, f st).

(** A range-based [for] whose body may throw. *)
Fixpoint for_each {St A : Type} (range : list A) (body : A → M St unit)
    : M St unit :=
  match range with
  | [] => mret tt
  | x :: rest => body x ;; for_each rest body
  end.

(** ** The type table *)

(** Modelled from the spec: the class of [_nodeTypes] is declared
    outside Compiler.cpp.  [Init] "replaces registry contents" with the
    given pairs.  The error of a failed lookup, UnsupportedNodeKind, is
    [CompilerError::notSupported], the one [CompileNode] throws for a
    kind it does not support. *)
Definition TypeMap_Init (pairs : list (string * NodeType))
    (_ : gmap string NodeType) : gmap string NodeType :=
  list_to_map pairs.

(** Modelled from the spec: [Get], the lookup of the type table, which
    "fails with UnsupportedNodeKind if unknown". *)
Definition TypeMap_Get (map : gmap string NodeType) (name : string)
    : Outcome NodeType :=
  match map !! name with
  | Some t => Returned t
  | None => Thrown notSupported
  end.

(** ** The compiler object *)

Definition c_InputVariableName : string := "input".
Definition c_OutputVariableName : string := "output".
Definition c_PredictFunctionName : string := "Predict".

Definition uint64_max : Z := 2 ^ 64 - 1.

(** [uint64_t] arithmetic is modulo [2^64]. *)
Definition wrap64 (z : Z) : Z := z mod 2 ^ 64.

(** The data members Compiler.cpp reads or writes itself.  [derived]
    holds the rest of the object: the members of the subclass that
    implements the hooks, and the scratch pool [_tempVars], whose class
    is declared elsewhere. *)
Record Compiler (PortType D : Type) : Type := mkCompiler {
  _nodeTypes : gmap string NodeType;
  _globalVars : Z;
  _inputs : list (Node PortType);
  _outputs : list (Node PortType);
  derived : D
}.
Arguments mkCompiler {PortType D} _ _ _ _ _.
Arguments _nodeTypes {PortType D} _.
Arguments _globalVars {PortType D} _.
Arguments _inputs {PortType D} _.
Arguments _outputs {PortType D} _.
Arguments derived {PortType D} _.

(** The pure virtual members: what a concrete compiler supplies. *)
Class Backend (PortType D : Type) : Type := {
  BeginMain : string → M (Compiler PortType D) unit;
  EndMain : M (Compiler PortType D) unit;
  Compile : DataNode → M (Compiler PortType D) unit
}.

Section Compiler.
Context {PortType D : Type} `{!EqDecision PortType} `{!Backend PortType D}.

Abbreviation Self := (Compiler PortType D).

Definition set_nodeTypes (t : gmap string NodeType) (c : Self) : Self :=
  mkCompiler t (_globalVars c) (_inputs c) (_outputs c) (derived c).

Definition set_globalVars (g : Z) (c : Self) : Self :=
  mkCompiler (_nodeTypes c) g (_inputs c) (_outputs c) (derived c).

Definition set_inputs (l : list (Node PortType)) (c : Self) : Self :=
  mkCompiler (_nodeTypes c) (_globalVars c) l (_outputs c) (derived c).

Definition set_outputs (l : list (Node PortType)) (c : Self) : Self :=
  mkCompiler (_nodeTypes c) (_globalVars c) (_inputs c) l (derived c).

(** [Compiler::InitSupportedNodeTypes] *)
Definition InitSupportedNodeTypes (c : Self) : Self :=
  set_nodeTypes
    (TypeMap_Init
       [("Input", input);
        ("ConstantNode", constant);
        ("BinaryOperationNode", binaryOp)]
       (_nodeTypes c))
    c.

(** Modelled from the spec: the class declaration, with the initial
    values of the data members, is not in Compiler.cpp.  The counter starts
    at 0, since the first identifier is to be 1 ("strictly increasing,
    starting at 1"), the two node vectors start empty, and [d] is the
    state the subclass starts in. *)
Definition initial_members (d : D) : Self := mkCompiler ∅ 0 [] [] d.

(** [Compiler::Compiler()]: [_nodeTypes()] is the empty table, then the
    body fills it. *)
Definition new_Compiler (d : D) : Self :=
  InitSupportedNodeTypes (initial_members d).

(** [Compiler::InputName] and [Compiler::OutputName] *)
Definition InputName (_ : Self) : string := c_InputVariableName.
Definition OutputName (_ : Self) : string := c_OutputVariableName.

(** [Compiler::AllocGlobal]: [_globalVars++; return _globalVars;] *)
Definition AllocGlobal : M Self Z :=
  λ c, let c' := set_globalVars (wrap64 (_globalVars c + 1)) c in
       (Returned (_globalVars c'), c').

(** [Compiler::CompileModel] *)
Definition CompileModel (model : Model PortType) : M Self unit :=
  modify (set_inputs (CollectInputNodes model)) ;;
  modify (set_outputs (CollectOutputNodes model)) ;;
  BeginMain c_PredictFunctionName ;;
  EndMain.

(** [Compiler::CompileNode] *)
Definition CompileNode (node : DataNode) : M Self unit :=
  BeginMain c_PredictFunctionName ;;
  match Type_ node with
  | Literal => Compile node
  | _ => throw notSupported
  end ;;
  EndMain.

(** [Compiler::GetNodeType] ([const]) *)
Definition GetNodeType (node : Node PortType) : M Self NodeType :=
  λ c, (TypeMap_Get (_nodeTypes c) (GetRuntimeTypeName node), c).

(** [Compiler::VerifyInputType] *)
Definition VerifyInputType (node : Node PortType) (type : PortType)
    : M Self unit :=
  let inputs := GetInputPorts node in
  for_each inputs (λ port,
    if decide (GetType port ≠ type)
    then throw inputPortTypeNotSupported
    else mret tt).

(** [Compiler::VerifyOutputType] *)
Definition VerifyOutputType (node : Node PortType) (type : PortType)
    : M Self unit :=
  let outputs := GetOutputPorts node in
  for_each outputs (λ port,
    if decide (GetType port ≠ type)
    then throw outputPortTypeNotSupported
    else mret tt).

(** [Compiler::Reset]: the body is empty. *)
Definition Reset : M Self unit := mret tt.

(** [n] calls of [AllocGlobal] in a row: the identifiers returned, in
    call order, and the object after the last call. *)
Fixpoint AllocGlobal_times (n : nat) (c : Self) : list Z * Self :=
  match n with
  | O => ([], c)
  | S n' =>
      match AllocGlobal c with
      | (Returned id, c1) =>
          let '(ids, c2) := AllocGlobal_times n' c1 in (id :: ids, c2)
      | (Thrown _, c1) => ([], c1)
      end
  end.

End Compiler.

(** ** ModelEx: port counts *)

Section ModelEx_counts.
Context {PortType : Type}.

(** [ModelEx::CountOutputs]: [count] is a [size_t], taken as 64 bits
    wide (the LP64 and LLP64 targets); [count += size()] is modulo
    [2^64]. *)
Definition CountOutputs (nodes : list (Node PortType)) : Z :=
  foldl (λ count n, wrap64 (count + Z.of_nat (length (GetOutputPorts n))))
        0 nodes.

(** [ModelEx::CountInputs] *)
Definition CountInputs (nodes : list (Node PortType)) : Z :=
  foldl (λ count n, wrap64 (count + Z.of_nat (length (GetInputPorts n))))
        0 nodes.

(** The number of output (input) ports of a list of nodes, as a
    mathematical integer. *)
Definition total_outputs (nodes : list (Node PortType)) : Z :=
  foldr (λ n acc, Z.of_nat (length (GetOutputPorts n)) + acc) 0 nodes.

Definition total_inputs (nodes : list (Node PortType)) : Z :=
  foldr (λ n acc, Z.of_nat (length (GetInputPorts n)) + acc) 0 nodes.

(** Modelled from the spec: the contract of [Model::Visit], which is
    declared outside Compiler.cpp.  The visitation is
    "dependency-respecting (a node is visited only after every node it
    depends on)": every dependent of a visited node is a node that is
    visited later. *)
Definition dependents_visited_later (model : Model PortType) : Prop :=
  ∀ (i : nat) (node : Node PortType) (d : N),
    visit_order model !! i = Some node →
    d ∈ GetDependentNodes node →
    ∃ (j : nat) (node' : Node PortType),
      (i < j)%nat ∧ visit_order model !! j = Some node' ∧ node_id node' = d.

End ModelEx_counts.

(** What a compilation stores in the object for its own use: the input
    and output nodes [CompileModel] resolved. *)
Definition session_scoped_state {PortType D : Type} (c : Compiler PortType D)
    : list (Node PortType) * list (Node PortType) :=
  (_inputs c, _outputs c).

(** ** A backend that records the calls it receives *)

(** The hooks as the driver calls them, in call order. *)
Inductive HookCall : Type :=
  | CallBeginMain (functionName : string)
  | CallEndMain
  | CallCompile (node : DataNode).

Definition record_call {PortType : Type} (h : HookCall)
    : M (Compiler PortType (list HookCall)) unit :=
  modify (λ c, mkCompiler (_nodeTypes c) (_globalVars c) (_inputs c)
                 (_outputs c) (derived c ++ [h])).

#[global] Instance RecordingBackend (PortType : Type)
    : Backend PortType (list HookCall) := {
  BeginMain name := record_call (CallBeginMain name);
  EndMain := record_call CallEndMain;
  Compile node := record_call (CallCompile node)
}.

(** The entry point is open after a [BeginMain] that no [EndMain] has
    followed yet. *)
Definition session_open (calls : list HookCall) : bool :=
  foldl (λ open h,
           match h with
           | CallBeginMain _ => true
           | CallEndMain => false
           | CallCompile _ => open
           end) false calls.

(** A newly constructed compiler over the recording backend. *)
Definition new_recording_Compiler : Compiler string (list HookCall) :=
  new_Compiler [].

(** That compiler once the recording backend has seen the one call
    [BeginMain "Predict"]. *)
Definition after_BeginMain : Compiler string (list HookCall) :=
  mkCompiler (_nodeTypes new_recording_Compiler) 0 [] []
    [CallBeginMain "Predict"].

(** A compiler over the recording backend that has compiled before:
    it holds the nodes of an earlier model, a counter that has moved,
    and the calls of the earlier compilation. *)
Definition earlier_recording_Compiler : Compiler string (list HookCall) :=
  mkCompiler (_nodeTypes new_recording_Compiler) 5
    [mkNode 2%N "model::ConstantNode<double>" "ConstantNode"
       [] [mkPort "double"] [3%N]]
    [mkNode 1%N typeid_InputNode_double "Input" [] [mkPort "double"] [3%N]]
    [CallBeginMain "Predict"; CallEndMain].

(** ** Sample graphs *)

(** An input node of class [InputNode<double>] that reports its own
    class name as its runtime type name. *)
Definition sample_input_node : Node string :=
  mkNode 1%N typeid_InputNode_double "InputNode<double>"
    [] [mkPort "double"] [].

Definition sample_input_model : Model string :=
  mkModel [sample_input_node].

(** The three-node graph A, B → C: two sources feeding a binary
    operation that nothing consumes. *)
Definition node_A : Node string :=
  mkNode 1%N typeid_InputNode_double "Input" [] [mkPort "double"] [3%N].

Definition node_B : Node string :=
  mkNode 2%N "model::ConstantNode<double>" "ConstantNode"
    [] [mkPort "double"] [3%N].

Definition node_C : Node string :=
  mkNode 3%N "model::BinaryOperationNode<double>" "BinaryOperationNode"
    [mkPort "double"; mkPort "double"] [mkPort "double"] [].

Definition model_ABC : Model string := mkModel [node_A; node_B; node_C].

Definition empty_model : Model string := mkModel [].

(** A data node of a kind other than [Literal]. *)
Definition non_literal_node : DataNode := mkDataNode (OtherDataNodeType 1) 7%N.

Definition literal_node : DataNode := mkDataNode Literal 8%N.

(** A node with two input ports of different types. *)
Definition node_mixed : Node string :=
  mkNode 4%N "model::BinaryOperationNode<double>" "BinaryOperationNode"
    [mkPort "double"; mkPort "int"] [mkPort "double"] [].

(** ** A backend that gives up after a number of calls *)

(** The state of this backend is the number of hook calls it still
    accepts: a hook called with none left throws [notSupported], any
    other call uses one up and returns. *)
Definition spend_one_call {PortType : Type}
    : M (Compiler PortType nat) unit :=
  λ c, match derived c with
       | O => (Thrown notSupported, c)
       | S remaining =>
           (Returned tt,
            mkCompiler (_nodeTypes c) (_globalVars c) (_inputs c)
              (_outputs c) remaining)
       end.

#[global] Instance BudgetBackend (PortType : Type)
    : Backend PortType nat := {
  BeginMain _ := spend_one_call;
  EndMain := spend_one_call;
  Compile _ := spend_one_call
}.

(** A newly constructed compiler whose backend accepts [calls] calls. *)
Definition new_budget_Compiler (calls : nat) : Compiler string nat :=
  new_Compiler calls.

(** * Properties *)

(** ** The monad *)

Lemma bind_Returned {St A B : Type} (m : M St A) (k : A → M St B) st a st' :
  m st = (Returned a, st') → (m ≫= k) st = k a st'.
Proof. intros Hm. unfold mbind, M_bind. by rewrite Hm. Qed.

Lemma bind_Thrown {St A B : Type} (m : M St A) (k : A → M St B) st e st' :
  m st = (Thrown e, st') → (m ≫= k) st = (Thrown e, st').
Proof. intros Hm. unfold mbind, M_bind. by rewrite Hm. Qed.

(** ** Graph analysis *)

Section ModelEx_facts.
Context {PortType : Type}.
Implicit Types (model : Model PortType) (node : Node PortType).

Lemma IsLeafNode_spec node :
  IsLeafNode node = true ↔ length (GetDependentNodes node) = 0%nat.
Proof. unfold IsLeafNode. by rewrite bool_decide_eq_true. Qed.

(** The visitor of [CollectNodes] only ever appends: started from
    [matches], it ends with [matches] followed by the nodes of the
    range that satisfy the predicate, in the order of the range. *)
Lemma collect_visitor_filter (predicate : Node PortType → bool)
    (range matches : list (Node PortType)) :
  foldl (λ acc node, if predicate node then acc ++ [node] else acc)
        matches range
  = matches ++ base.filter (λ node, predicate node = true) range.
Proof.
  revert matches. induction range as [|node range IH]; intros matches.
  - by rewrite app_nil_r.
  - cbn [foldl]. rewrite IH. destruct (predicate node) eqn:Hp.
    + rewrite filter_cons_True by done. by rewrite <- app_assoc.
    + rewrite filter_cons_False; [done | by rewrite Hp].
Qed.

Lemma CollectNodes_filter model (predicate : Node PortType → bool) :
  CollectNodes model predicate
  = base.filter (λ node, predicate node = true) (visit_order model).
Proof. unfold CollectNodes, Visit. by rewrite collect_visitor_filter. Qed.

Lemma elem_of_CollectNodes model (predicate : Node PortType → bool) node :
  node ∈ CollectNodes model predicate
  ↔ predicate node = true ∧ node ∈ visit_order model.
Proof. by rewrite CollectNodes_filter, list_elem_of_filter. Qed.

Lemma findNodes_spec node :
  findNodes node = true
  ↔ typeid node = typeid_InputNode_double ∨ typeid node = typeid_InputNode_int.
Proof.
  unfold findNodes. rewrite orb_true_iff.
  by rewrite !bool_decide_eq_true.
Qed.

(** C1. For every node of the model (every node the visitation yields):
    the node is in the sequence [CollectOutputNodes] returns exactly
    when its set of dependents has count 0, which is what
    [IsLeafNode] decides. *)
Theorem CollectOutputNodes_iff_no_dependents model node :
  node ∈ visit_order model →
  (node ∈ CollectOutputNodes model
   ↔ length (GetDependentNodes node) = 0%nat)
  ∧ (IsLeafNode node = true ↔ length (GetDependentNodes node) = 0%nat).
Proof.
  intros Hin. split; [|apply IsLeafNode_spec].
  unfold CollectOutputNodes. rewrite elem_of_CollectNodes, IsLeafNode_spec.
  tauto.
Qed.

(** C2, as the code has it.  [CollectInputNodes] returns the visited
    nodes whose dynamic class is [InputNode<double>] or
    [InputNode<int>], each as often as it is visited and in visitation
    order, and no other node; the function is static, takes the model
    alone and reads neither the type table nor the runtime type name. *)
Theorem CollectInputNodes_iff_input_class model :
  CollectInputNodes model
  = base.filter
      (λ node, typeid node = typeid_InputNode_double
               ∨ typeid node = typeid_InputNode_int)
      (visit_order model)
  ∧ ∀ node,
      node ∈ CollectInputNodes model
      ↔ node ∈ visit_order model
        ∧ (typeid node = typeid_InputNode_double
           ∨ typeid node = typeid_InputNode_int).
Proof.
  split.
  - unfold CollectInputNodes. rewrite CollectNodes_filter.
    apply list_filter_iff. intros node. apply findNodes_spec.
  - intros node. unfold CollectInputNodes.
    rewrite elem_of_CollectNodes, findNodes_spec. tauto.
Qed.

(** C10. [GetNodeDataType] reads port 0 of the output ports without a
    check: with at least one output port it is the type of the first
    one; it has no defined result exactly when the node has no output
    port. *)
Theorem GetNodeDataType_needs_an_output_port node :
  ((1 ≤ length (GetOutputPorts node))%nat →
   ∃ port rest, GetOutputPorts node = port :: rest
                ∧ GetNodeDataType node = Some (GetType port))
  ∧ (GetNodeDataType node = None ↔ length (GetOutputPorts node) = 0%nat).
Proof.
  unfold GetNodeDataType. destruct (GetOutputPorts node) as [|port rest].
  - split; [cbn; lia | done].
  - split; [intros _; by exists port, rest | cbn; split; [done | lia]].
Qed.

End ModelEx_facts.

(** ** The driver *)

(** A loop whose body throws at [x], after the bodies of the elements
    before [x] returned, ends there: the elements after [x] are never
    reached. *)
Lemma for_each_stops {St A : Type} (body : A → M St unit)
    (pre : list A) (x : A) (post : list A) (st st1 st2 : St) e :
  for_each pre body st = (Returned tt, st1) →
  body x st1 = (Thrown e, st2) →
  for_each (pre ++ x :: post) body st = (Thrown e, st2).
Proof.
  revert st. induction pre as [|y pre IH]; intros st Hpre Hx.
  - cbn in Hpre. injection Hpre as <-. cbn [app for_each].
    by apply bind_Thrown.
  - cbn [app for_each] in *. unfold mbind, M_bind in *.
    destruct (body y st) as [[[]|e'] st']; [by apply IH | done].
Qed.

Lemma wrap64_succ (z : Z) : wrap64 (wrap64 z + 1) = wrap64 (z + 1).
Proof. unfold wrap64. by rewrite Zplus_mod_idemp_l. Qed.

Lemma wrap64_small (z : Z) : 0 ≤ z ≤ uint64_max → wrap64 z = z.
Proof. unfold wrap64, uint64_max. intros ?. apply Z.mod_small. lia. Qed.

Section Compiler_facts.
Context {PortType D : Type} `{!EqDecision PortType} `{!Backend PortType D}.
Implicit Types (c : Compiler PortType D) (node : Node PortType).

(** The scan of a port list: it returns when every port has the
    expected type and throws [e] otherwise; the object is not
    written. *)
Lemma verify_scan (e : CompilerError) (ports : list (Port PortType))
    (type : PortType) c :
  for_each ports
    (λ port, if decide (GetType port ≠ type) then throw e else mret tt) c
  = if decide (Forall (λ port, GetType port = type) ports)
    then (Returned tt, c) else (Thrown e, c).
Proof.
  induction ports as [|port ports IH]; [done|].
  cbn [for_each]. unfold mbind, M_bind.
  destruct (decide (GetType port ≠ type)) as [Hne|Heq].
  - cbn. rewrite decide_False; [done|]. intros HF. by inversion HF.
  - apply dec_stable in Heq. cbn. rewrite IH.
    destruct (decide (Forall _ ports)) as [HF|HF].
    + rewrite decide_True; [done | by constructor].
    + rewrite decide_False; [done|]. intros HF'. by inversion HF'.
Qed.

Lemma verify_scan_throws_iff (e : CompilerError)
    (ports : list (Port PortType)) (type : PortType) c :
  for_each ports
    (λ port, if decide (GetType port ≠ type) then throw e else mret tt) c
  = (Thrown e, c)
  ↔ Exists (λ port, GetType port ≠ type) ports.
Proof.
  rewrite verify_scan. case_decide as HF.
  - split; [done|]. intros HE. exfalso.
    apply Exists_exists in HE as (port & Hin & Hne).
    rewrite Forall_forall in HF. by apply Hne, HF.
  - split; [intros _ | done].
    by apply (not_Forall_Exists (λ port, GetType port = type)) in HF.
Qed.

Lemma verify_scan_returns_iff (e : CompilerError)
    (ports : list (Port PortType)) (type : PortType) c :
  for_each ports
    (λ port, if decide (GetType port ≠ type) then throw e else mret tt) c
  = (Returned tt, c)
  ↔ Forall (λ port, GetType port = type) ports.
Proof. rewrite verify_scan. by case_decide. Qed.

Lemma verify_scan_first (e : CompilerError)
    (pre : list (Port PortType)) (port : Port PortType)
    (post : list (Port PortType)) (type : PortType) c :
  Forall (λ p, GetType p = type) pre →
  GetType port ≠ type →
  for_each (pre ++ port :: post)
    (λ port, if decide (GetType port ≠ type) then throw e else mret tt) c
  = (Thrown e, c).
Proof.
  intros Hpre Hport. eapply for_each_stops.
  - by apply verify_scan_returns_iff.
  - by rewrite decide_True.
Qed.

(** C5. [VerifyInputType] throws (the input form of the port type
    mismatch, [inputPortTypeNotSupported]) exactly when at least one
    input port has a type other than the expected one, and returns
    exactly when all have it, so in particular when there is no input
    port; the throw happens at the first such port in port order,
    whatever ports follow it.  [VerifyOutputType] does the same over the
    output ports, with [outputPortTypeNotSupported]. *)
Theorem Verify_port_types node (type : PortType) c :
  ((VerifyInputType node type c = (Thrown inputPortTypeNotSupported, c)
    ↔ Exists (λ port, GetType port ≠ type) (GetInputPorts node))
   ∧ (VerifyInputType node type c = (Returned tt, c)
      ↔ Forall (λ port, GetType port = type) (GetInputPorts node))
   ∧ (GetInputPorts node = [] →
      VerifyInputType node type c = (Returned tt, c))
   ∧ (∀ pre port post,
        GetInputPorts node = pre ++ port :: post →
        Forall (λ p, GetType p = type) pre →
        GetType port ≠ type →
        VerifyInputType node type c = (Thrown inputPortTypeNotSupported, c)))
  ∧ ((VerifyOutputType node type c = (Thrown outputPortTypeNotSupported, c)
      ↔ Exists (λ port, GetType port ≠ type) (GetOutputPorts node))
     ∧ (VerifyOutputType node type c = (Returned tt, c)
        ↔ Forall (λ port, GetType port = type) (GetOutputPorts node))
     ∧ (GetOutputPorts node = [] →
        VerifyOutputType node type c = (Returned tt, c))
     ∧ (∀ pre port post,
          GetOutputPorts node = pre ++ port :: post →
          Forall (λ p, GetType p = type) pre →
          GetType port ≠ type →
          VerifyOutputType node type c
          = (Thrown outputPortTypeNotSupported, c))).
Proof.
  unfold VerifyInputType, VerifyOutputType. cbv zeta.
  split; (split; [apply verify_scan_throws_iff|];
          split; [apply verify_scan_returns_iff|];
          split; [by intros ->|];
          intros pre port post -> ??; by apply verify_scan_first).
Qed.

(** *** Dispatch and the entry-point bracket *)

(** What [CompileNode] does once [BeginMain] has returned. *)
Lemma CompileNode_after_BeginMain (dnode : DataNode) c c1 :
  BeginMain c_PredictFunctionName c = (Returned tt, c1) →
  CompileNode dnode c
  = match Type_ dnode with
    | Literal => (Compile dnode ≫= λ _, EndMain) c1
    | OtherDataNodeType _ => (Thrown notSupported, c1)
    end.
Proof.
  intros HB. unfold CompileNode.
  rewrite (bind_Returned _ _ _ _ _ HB).
  by destruct (Type_ dnode).
Qed.

(** The [default] branch: the throw leaves the object as [BeginMain]
    left it; [EndMain] does not run. *)
Lemma CompileNode_default (dnode : DataNode) c c1 :
  BeginMain c_PredictFunctionName c = (Returned tt, c1) →
  Type_ dnode ≠ Literal →
  CompileNode dnode c = (Thrown notSupported, c1).
Proof.
  intros HB Hne. rewrite (CompileNode_after_BeginMain _ _ _ HB).
  by destruct (Type_ dnode).
Qed.

(** C3. Once the entry point is open, a node whose [Type()] is not
    [Literal] makes [CompileNode] throw [notSupported]; for a [Literal]
    node [CompileNode] runs the literal lowering and then [EndMain],
    throws nothing of its own, and returns when these two return. *)
Theorem CompileNode_dispatch (dnode : DataNode) c c1 :
  BeginMain c_PredictFunctionName c = (Returned tt, c1) →
  (Type_ dnode ≠ Literal → CompileNode dnode c = (Thrown notSupported, c1))
  ∧ (Type_ dnode = Literal →
     CompileNode dnode c = (Compile dnode ≫= λ _, EndMain) c1
     ∧ ∀ c2 c3,
         Compile dnode c1 = (Returned tt, c2) →
         EndMain c2 = (Returned tt, c3) →
         CompileNode dnode c = (Returned tt, c3)).
Proof.
  intros HB. split; [by apply CompileNode_default|].
  intros HL. rewrite (CompileNode_after_BeginMain _ _ _ HB), HL.
  split; [done|]. intros c2 c3 HC HE.
  by rewrite (bind_Returned _ _ _ _ _ HC).
Qed.

(** C8. For every model, with or without nodes, and every object:
    [CompileModel] first stores the input nodes and the output nodes
    that [ModelEx] collects from the model (the visited nodes of an
    input class, and the visited nodes without dependents, in
    visitation order) in place of whatever was stored; it then calls
    [BeginMain] with the name "Predict" on that object and [EndMain] on
    what [BeginMain] left, whatever was collected, and throws nothing of
    its own, so it returns when the two hooks return.  On a model
    without nodes both stored collections are empty. *)
Theorem CompileModel_brackets_Predict (model : Model PortType) c :
  let stored :=
    mkCompiler (_nodeTypes c) (_globalVars c)
      (CollectInputNodes model) (CollectOutputNodes model) (derived c) in
  CompileModel model c = (BeginMain "Predict" ≫= λ _, EndMain) stored
  ∧ (∀ c1 c2,
       BeginMain "Predict" stored = (Returned tt, c1) →
       EndMain c1 = (Returned tt, c2) →
       CompileModel model c = (Returned tt, c2))
  ∧ _inputs stored
    = base.filter
        (λ node, typeid node = typeid_InputNode_double
                 ∨ typeid node = typeid_InputNode_int)
        (visit_order model)
  ∧ _outputs stored
    = base.filter (λ node, length (GetDependentNodes node) = 0%nat)
        (visit_order model)
  ∧ (visit_order model = [] →
     stored = mkCompiler (_nodeTypes c) (_globalVars c) [] [] (derived c)).
Proof.
  intros stored.
  assert (Hrun : CompileModel model c
                 = (BeginMain "Predict" ≫= λ _, EndMain) stored) by done.
  assert (Hin : CollectInputNodes model
                = base.filter
                    (λ node, typeid node = typeid_InputNode_double
                             ∨ typeid node = typeid_InputNode_int)
                    (visit_order model)).
  { unfold CollectInputNodes. rewrite CollectNodes_filter.
    apply list_filter_iff. intros node. apply findNodes_spec. }
  assert (Hout : CollectOutputNodes model
                 = base.filter
                     (λ node, length (GetDependentNodes node) = 0%nat)
                     (visit_order model)).
  { unfold CollectOutputNodes. rewrite CollectNodes_filter.
    apply list_filter_iff. intros node. apply IsLeafNode_spec. }
  split; [exact Hrun|]. split.
  { intros c1 c2 HB HE. rewrite Hrun.
    by rewrite (bind_Returned _ _ _ _ _ HB). }
  split; [exact Hin|]. split; [exact Hout|].
  intros Hnil. unfold stored. by rewrite Hin, Hout, Hnil.
Qed.

(** *** The type table *)

(** C7. In a newly constructed compiler the runtime type names "Input",
    "ConstantNode" and "BinaryOperationNode" resolve to [input],
    [constant] and [binaryOp]; in any compiler, a name that the table
    does not hold makes [GetNodeType] throw [notSupported], and
    "UnregisteredKind" is such a name for the built-in table. *)
Theorem GetNodeType_builtin_kinds (d : D) node c :
  (GetRuntimeTypeName node = "Input" →
   GetNodeType node (new_Compiler d) = (Returned input, new_Compiler d))
  ∧ (GetRuntimeTypeName node = "ConstantNode" →
     GetNodeType node (new_Compiler d) = (Returned constant, new_Compiler d))
  ∧ (GetRuntimeTypeName node = "BinaryOperationNode" →
     GetNodeType node (new_Compiler d) = (Returned binaryOp, new_Compiler d))
  ∧ (_nodeTypes c !! GetRuntimeTypeName node = None →
     GetNodeType node c = (Thrown notSupported, c))
  ∧ _nodeTypes (new_Compiler (PortType:=PortType) d) !! "UnregisteredKind"
    = None.
Proof.
  unfold GetNodeType, TypeMap_Get.
  repeat split; try (by intros ->).
Qed.

(** *** Reset *)

(** C9, as the code has it.  [Reset] returns without writing any
    member: the type table is unchanged, and so are the counter, the
    collected input and output nodes and the state of the subclass. *)
Theorem Reset_changes_nothing c :
  Reset c = (Returned tt, c)
  ∧ _nodeTypes (Reset c).2 = _nodeTypes c
  ∧ session_scoped_state (Reset c).2 = session_scoped_state c
  ∧ _globalVars (Reset c).2 = _globalVars c
  ∧ derived (Reset c).2 = derived c.
Proof. unfold Reset, mret, M_ret. cbn [snd]. repeat split. Qed.

(** *** Global identifiers *)

Lemma AllocGlobal_times_length (n : nat) c :
  length (AllocGlobal_times n c).1 = n.
Proof.
  revert c. induction n as [|n IH]; intros c; [done|].
  cbn [AllocGlobal_times AllocGlobal].
  specialize (IH (set_globalVars (wrap64 (_globalVars c + 1)) c)).
  destruct (AllocGlobal_times n _) as [ids c2]. cbn in *. by rewrite IH.
Qed.

(** Call number [k + 1] returns the counter's initial value plus
    [k + 1], modulo [2^64]. *)
Lemma AllocGlobal_times_lookup (n k : nat) c :
  (k < n)%nat →
  (AllocGlobal_times n c).1 !! k
  = Some (wrap64 (_globalVars c + Z.of_nat k + 1)).
Proof.
  revert c k. induction n as [|n IH]; intros c k Hk; [lia|].
  cbn [AllocGlobal_times AllocGlobal].
  pose proof (IH (set_globalVars (wrap64 (_globalVars c + 1)) c)) as IH'.
  destruct (AllocGlobal_times n _) as [ids c2]. cbn [fst] in *.
  destruct k as [|k].
  - cbn. do 2 f_equal. lia.
  - etrans; [apply (IH' k); lia|]. cbn [_globalVars set_globalVars].
    f_equal. unfold wrap64.
    rewrite <- !Z.add_assoc, Zplus_mod_idemp_l. f_equal. lia.
Qed.

(** C6, as the code has it.  On a newly constructed compiler, [n] calls
    of [AllocGlobal] with [1 ≤ n ≤ 2^64 - 1] return [n] identifiers, the
    first of which is 1 and the [k]-th of which is [k], each in
    [1, 2^64 - 1], strictly increasing in call order and hence pairwise
    distinct. *)
Theorem AllocGlobal_fresh_increasing (d : D) (n : nat) :
  (1 ≤ n)%nat →
  Z.of_nat n ≤ uint64_max →
  let ids := (AllocGlobal_times n (new_Compiler (PortType:=PortType) d)).1 in
  length ids = n
  ∧ ids !! 0%nat = Some 1
  ∧ (∀ k, (k < n)%nat → ids !! k = Some (Z.of_nat k + 1))
  ∧ (∀ i j a b, (i < j)%nat → ids !! i = Some a → ids !! j = Some b → a < b)
  ∧ NoDup ids
  ∧ (∀ a, a ∈ ids → 1 ≤ a ≤ uint64_max).
Proof.
  intros Hn Hmax ids.
  assert (Hlen : length ids = n) by apply AllocGlobal_times_length.
  assert (Hk : ∀ k a, ids !! k = Some a → (k < n)%nat ∧ a = Z.of_nat k + 1).
  { intros k a Hka.
    assert (k < n)%nat as Hlt by (rewrite <- Hlen; by eapply lookup_lt_Some).
    split; [done|]. unfold ids in Hka.
    rewrite (AllocGlobal_times_lookup n k _ Hlt) in Hka.
    injection Hka as <-. cbn [new_Compiler InitSupportedNodeTypes
      initial_members set_nodeTypes _globalVars].
    rewrite wrap64_small; lia. }
  split; [done|]. split.
  { unfold ids. rewrite (AllocGlobal_times_lookup n 0) by lia.
    by cbn. }
  split.
  { intros k Hlt.
    destruct (lookup_lt_is_Some_2 ids k) as [a Ha]; [by rewrite Hlen|].
    rewrite Ha. f_equal. by apply Hk in Ha as [_ ->]. }
  split.
  { intros i j a b Hij Hi Hj.
    apply Hk in Hi as [_ ->]. apply Hk in Hj as [_ ->]. lia. }
  split.
  { apply NoDup_alt. intros i j a Hi Hj.
    apply Hk in Hi as [_ Hi]. apply Hk in Hj as [_ Hj]. lia. }
  intros a Ha. apply list_elem_of_lookup in Ha as [k Ha].
  apply Hk in Ha as [? ->]. lia.
Qed.

End Compiler_facts.

(** ** The properties on sample objects *)

Lemma CollectOutputNodes_iff_no_dependents_witness :
  node_C ∈ visit_order model_ABC
  ∧ (node_C ∈ CollectOutputNodes model_ABC
     ↔ length (GetDependentNodes node_C) = 0%nat)
  ∧ (IsLeafNode node_C = true ↔ length (GetDependentNodes node_C) = 0%nat).
Proof.
  assert (H : node_C ∈ visit_order model_ABC).
  { do 2 apply list_elem_of_further. apply list_elem_of_here. }
  split; [exact H|].
  exact (CollectOutputNodes_iff_no_dependents model_ABC node_C H).
Defined.

(** The sample graph: A is the one input node and C the one output
    node. *)
Example model_ABC_collect :
  CollectInputNodes model_ABC = [node_A]
  ∧ CollectOutputNodes model_ABC = [node_C].
Proof. split; reflexivity. Qed.

(** Two input nodes around a node of another class: both are collected,
    in the order they are visited. *)
Example CollectInputNodes_in_visit_order :
  CollectInputNodes
    (mkModel
       [mkNode 5%N typeid_InputNode_int "InputNode<int>" [] [mkPort "int"] [];
        node_B;
        node_A])
  = [mkNode 5%N typeid_InputNode_int "InputNode<int>" [] [mkPort "int"] [];
     node_A].
Proof. reflexivity. Qed.

(** C2 fails as stated.  The claim: a node of the model is collected
    exactly when the type table maps its runtime type name to [input].
    The sample input node is collected, because its class is
    [InputNode<double>], while the table has no entry for its name. *)
Lemma CollectInputNodes_not_by_type_table :
  ¬ (∀ (model : Model string) (node : Node string),
       node ∈ visit_order model →
       (node ∈ CollectInputNodes model
        ↔ _nodeTypes new_recording_Compiler !! GetRuntimeTypeName node
          = Some input)).
Proof.
  intros Hclaim.
  assert (Hin : sample_input_node ∈ visit_order sample_input_model)
    by apply list_elem_of_here.
  destruct (Hclaim sample_input_model sample_input_node Hin) as [Hreg _].
  assert (Hcollected : sample_input_node ∈ CollectInputNodes sample_input_model)
    by apply list_elem_of_here.
  specialize (Hreg Hcollected). vm_compute in Hreg. discriminate.
Qed.

Lemma GetNodeDataType_needs_an_output_port_witness :
  (1 ≤ length (GetOutputPorts node_C))%nat
  ∧ ∃ port rest, GetOutputPorts node_C = port :: rest
                 ∧ GetNodeDataType node_C = Some (GetType port).
Proof.
  assert (H : (1 ≤ length (GetOutputPorts node_C))%nat) by (cbn; lia).
  split; [exact H|].
  exact (proj1 (GetNodeDataType_needs_an_output_port node_C) H).
Defined.

(** A node without output ports: the read has no defined result. *)
Example GetNodeDataType_no_output_port :
  GetNodeDataType (mkNode 9%N "model::SinkNode" "SinkNode"
                     [mkPort "double"] [] []) = None.
Proof. reflexivity. Qed.

Lemma Verify_port_types_witness :
  (GetInputPorts node_A = [] ∧
   VerifyInputType node_A "double" new_recording_Compiler
   = (Returned tt, new_recording_Compiler))
  ∧ (GetInputPorts node_C = [] ++ mkPort "double" :: [mkPort "double"]
     ∧ Forall (λ p : Port string, GetType p = "int") []
     ∧ GetType (mkPort "double") ≠ "int"
     ∧ VerifyInputType node_C "int" new_recording_Compiler
       = (Thrown inputPortTypeNotSupported, new_recording_Compiler)).
Proof.
  assert (H1 : GetInputPorts node_A = []) by reflexivity.
  assert (H2 : GetInputPorts node_C
               = [] ++ mkPort "double" :: [mkPort "double"]) by reflexivity.
  assert (H3 : Forall (λ p : Port string, GetType p = "int") [])
    by constructor.
  assert (H4 : GetType (mkPort "double") ≠ "int") by (cbn; discriminate).
  split.
  - split; [exact H1|].
    exact (proj1 (proj2 (proj2 (proj1
      (Verify_port_types node_A "double" new_recording_Compiler)))) H1).
  - repeat (split; [assumption|]).
    exact (proj2 (proj2 (proj2 (proj1
      (Verify_port_types node_C "int" new_recording_Compiler))))
      [] (mkPort "double") [mkPort "double"] H2 H3 H4).
Defined.

Lemma CompileNode_dispatch_witness :
  BeginMain c_PredictFunctionName new_recording_Compiler
  = (Returned tt, after_BeginMain)
  ∧ Type_ non_literal_node ≠ Literal
  ∧ CompileNode non_literal_node new_recording_Compiler
    = (Thrown notSupported, after_BeginMain).
Proof.
  assert (HB : BeginMain c_PredictFunctionName new_recording_Compiler
               = (Returned tt, after_BeginMain)) by reflexivity.
  assert (Hne : Type_ non_literal_node ≠ Literal) by (cbn; discriminate).
  split; [exact HB|]. split; [exact Hne|].
  exact (proj1 (CompileNode_dispatch non_literal_node
                  new_recording_Compiler after_BeginMain HB) Hne).
Defined.

(** A literal node: the three hooks are called in order and the call
    returns with the entry point closed. *)
Example CompileNode_literal_recorded :
  ∃ c, CompileNode literal_node new_recording_Compiler = (Returned tt, c)
       ∧ derived c
         = [CallBeginMain "Predict"; CallCompile literal_node; CallEndMain]
       ∧ session_open (derived c) = false.
Proof. eexists. repeat split. Qed.

(** C4 on the code.  [CompileNode] on a node that is not a literal
    throws [notSupported] after [BeginMain] and before [EndMain]: the
    object is left as [BeginMain] left it, with the entry point
    "Predict" open. *)
Theorem CompileNode_throw_leaves_entry_point_open :
  CompileNode non_literal_node new_recording_Compiler
  = (Thrown notSupported, after_BeginMain)
  ∧ derived after_BeginMain = [CallBeginMain "Predict"]
  ∧ session_open (derived after_BeginMain) = true.
Proof. repeat split. Qed.

Lemma CompileModel_brackets_Predict_witness :
  let table := _nodeTypes new_recording_Compiler in
  let earlier := [CallBeginMain "Predict"; CallEndMain] in
  BeginMain "Predict"
    (mkCompiler table 5 (CollectInputNodes model_ABC)
       (CollectOutputNodes model_ABC) earlier)
  = (Returned tt,
     mkCompiler table 5 [node_A] [node_C]
       (earlier ++ [CallBeginMain "Predict"]))
  ∧ EndMain (mkCompiler table 5 [node_A] [node_C]
               (earlier ++ [CallBeginMain "Predict"]))
    = (Returned tt,
       mkCompiler table 5 [node_A] [node_C]
         (earlier ++ [CallBeginMain "Predict"; CallEndMain]))
  ∧ CompileModel model_ABC earlier_recording_Compiler
    = (Returned tt,
       mkCompiler table 5 [node_A] [node_C]
         (earlier ++ [CallBeginMain "Predict"; CallEndMain]))
  ∧ visit_order empty_model = []
  ∧ mkCompiler table 5 (CollectInputNodes empty_model)
      (CollectOutputNodes empty_model) earlier
    = mkCompiler table 5 [] [] earlier.
Proof.
  intros table earlier.
  assert (HB : BeginMain "Predict"
                 (mkCompiler table 5 (CollectInputNodes model_ABC)
                    (CollectOutputNodes model_ABC) earlier)
               = (Returned tt,
                  mkCompiler table 5 [node_A] [node_C]
                    (earlier ++ [CallBeginMain "Predict"])))
    by reflexivity.
  assert (HE : EndMain (mkCompiler table 5 [node_A] [node_C]
                          (earlier ++ [CallBeginMain "Predict"]))
               = (Returned tt,
                  mkCompiler table 5 [node_A] [node_C]
                    (earlier ++ [CallBeginMain "Predict"; CallEndMain])))
    by reflexivity.
  assert (Hnil : visit_order empty_model = []) by reflexivity.
  split; [exact HB|]. split; [exact HE|]. split.
  - exact (proj1 (proj2
      (CompileModel_brackets_Predict model_ABC earlier_recording_Compiler))
      _ _ HB HE).
  - split; [exact Hnil|].
    exact (proj2 (proj2 (proj2 (proj2
      (CompileModel_brackets_Predict empty_model
         earlier_recording_Compiler)))) Hnil).
Defined.

(** On the recording backend, for every model: the two collections are
    stored and the calls made are [BeginMain "Predict"] then
    [EndMain]. *)
Lemma CompileModel_recorded (model : Model string)
    (c : Compiler string (list HookCall)) :
  CompileModel model c
  = (Returned tt,
     mkCompiler (_nodeTypes c) (_globalVars c)
       (CollectInputNodes model) (CollectOutputNodes model)
       (derived c ++ [CallBeginMain "Predict"; CallEndMain])).
Proof.
  unfold CompileModel, mbind, M_bind, modify. cbn.
  unfold record_call, modify. cbn. by rewrite <- app_assoc.
Qed.

Lemma GetNodeType_builtin_kinds_witness :
  GetRuntimeTypeName node_A = "Input"
  ∧ GetNodeType node_A new_recording_Compiler
    = (Returned input, new_recording_Compiler)
  ∧ _nodeTypes new_recording_Compiler !! GetRuntimeTypeName sample_input_node
    = None
  ∧ GetNodeType sample_input_node new_recording_Compiler
    = (Thrown notSupported, new_recording_Compiler).
Proof.
  assert (H1 : GetRuntimeTypeName node_A = "Input") by reflexivity.
  assert (H2 : _nodeTypes new_recording_Compiler
                 !! GetRuntimeTypeName sample_input_node = None)
    by reflexivity.
  split; [exact H1|]. split.
  - exact (proj1 (GetNodeType_builtin_kinds [] node_A
                    new_recording_Compiler) H1).
  - split; [exact H2|].
    exact (proj1 (proj2 (proj2 (proj2
      (GetNodeType_builtin_kinds [] sample_input_node
         new_recording_Compiler)))) H2).
Defined.

(** C9 fails as stated.  The claim: after [Reset] the session-scoped
    state is the one a compilation on a new compiler starts from.  After
    [CompileModel] on the sample graph, [Reset] leaves the collected
    nodes where they are. *)
Lemma Reset_does_not_clear :
  ¬ (∀ c : Compiler string (list HookCall),
       session_scoped_state (Reset c).2
       = session_scoped_state new_recording_Compiler).
Proof.
  intros Hclaim.
  specialize (Hclaim (CompileModel model_ABC new_recording_Compiler).2).
  vm_compute in Hclaim. discriminate.
Qed.

Lemma AllocGlobal_fresh_increasing_witness :
  (1 ≤ 3)%nat ∧ Z.of_nat 3 ≤ uint64_max
  ∧ let ids := (AllocGlobal_times 3 new_recording_Compiler).1 in
    length ids = 3%nat
    ∧ ids !! 0%nat = Some 1
    ∧ (∀ k, (k < 3)%nat → ids !! k = Some (Z.of_nat k + 1))
    ∧ (∀ i j a b, (i < j)%nat → ids !! i = Some a → ids !! j = Some b → a < b)
    ∧ NoDup ids
    ∧ (∀ a, a ∈ ids → 1 ≤ a ≤ uint64_max).
Proof.
  assert (H1 : (1 ≤ 3)%nat) by lia.
  assert (H2 : Z.of_nat 3 ≤ uint64_max) by (vm_compute; discriminate).
  split; [exact H1|]. split; [exact H2|].
  exact (AllocGlobal_fresh_increasing (PortType:=string) [] 3 H1 H2).
Defined.

Example AllocGlobal_three_calls :
  (AllocGlobal_times 3 new_recording_Compiler).1 = [1; 2; 3].
Proof. reflexivity. Qed.

(** Call number [2^64] returns 0 and call number [2^64 + 1] returns 1,
    the identifier of the first call. *)
Lemma AllocGlobal_wraps_around :
  let ids := (AllocGlobal_times (Z.to_nat (2 ^ 64 + 1))
                new_recording_Compiler).1 in
  ids !! 0%nat = Some 1
  ∧ ids !! Z.to_nat (2 ^ 64 - 1) = Some 0
  ∧ ids !! Z.to_nat (2 ^ 64) = Some 1.
Proof.
  intros ids. unfold ids.
  rewrite !AllocGlobal_times_lookup by lia.
  change (_globalVars new_recording_Compiler) with 0.
  rewrite !Z2Nat.id by lia. unfold wrap64.
  repeat split; f_equal.
Qed.

(** C6 fails as stated.  The claim: for every [n ≥ 1], [n] calls return
    pairwise distinct identifiers.  With [n = 2^64 + 1] the last call
    returns 1 again. *)
Lemma AllocGlobal_repeats_after_2_64_calls :
  ¬ NoDup (AllocGlobal_times (Z.to_nat (2 ^ 64 + 1))
             new_recording_Compiler).1.
Proof.
  intros Hnodup.
  destruct AllocGlobal_wraps_around as (H0 & _ & H64).
  pose proof (NoDup_lookup _ _ _ _ Hnodup H0 H64) as Heq.
  lia.
Qed.

(** * Further properties of the code *)

(** ** Collecting nodes *)

Section Collect_facts.
Context {PortType : Type}.
Implicit Types (model : Model PortType) (node : Node PortType).

(** X1. Whatever the predicate, [CollectNodes] returns the matching
    nodes in visitation order and nothing else: the result is the
    visitation order with some nodes left out, it holds exactly the
    visited nodes that satisfy the predicate, and a node that is visited
    once is collected at most once. *)
Theorem CollectNodes_keeps_visit_order model
    (predicate : Node PortType → bool) :
  CollectNodes model predicate `sublist_of` visit_order model
  ∧ (∀ node, node ∈ CollectNodes model predicate
             ↔ predicate node = true ∧ node ∈ visit_order model)
  ∧ (length (CollectNodes model predicate) ≤ length (visit_order model))%nat
  ∧ (NoDup (visit_order model) → NoDup (CollectNodes model predicate)).
Proof.
  assert (Hsub : CollectNodes model predicate `sublist_of` visit_order model).
  { rewrite CollectNodes_filter. apply sublist_filter. }
  split; [exact Hsub|]. split; [intros node; apply elem_of_CollectNodes|].
  split; [by apply sublist_length|].
  intros Hnd. by eapply sublist_NoDup.
Qed.

(** X2. Every visited node is collected by exactly one of a predicate
    and its negation: the two collections together are a rearrangement
    of the visitation order, and they share no node. *)
Theorem CollectNodes_splits_the_model model
    (predicate : Node PortType → bool) :
  CollectNodes model predicate
    ++ CollectNodes model (λ node, negb (predicate node))
  ≡ₚ visit_order model
  ∧ (∀ node, node ∈ CollectNodes model predicate →
             node ∉ CollectNodes model (λ node, negb (predicate node))).
Proof.
  split.
  - rewrite !CollectNodes_filter.
    induction (visit_order model) as [|node range IH]; [done|].
    rewrite !filter_cons.
    destruct (predicate node) eqn:Hp; repeat case_decide; try done.
    + cbn. by rewrite IH.
    + rewrite <- Permutation_middle. by rewrite IH.
  - intros node [Hp _]%elem_of_CollectNodes [Hn _]%elem_of_CollectNodes.
    rewrite Hp in Hn. discriminate.
Qed.

(** X3. When the visitation respects the dependencies (the dependents
    of a node are visited after it), the node visited last has no
    dependent, so a model with at least one node has at least one output
    node: [CollectOutputNodes] returns a list that ends with the last
    visited node. *)
Theorem CollectOutputNodes_has_the_last_node model :
  visit_order model ≠ [] →
  dependents_visited_later model →
  ∃ node, last (visit_order model) = Some node
          ∧ IsLeafNode node = true
          ∧ last (CollectOutputNodes model) = Some node.
Proof.
  intros Hne Hdep.
  destruct (proj2 (last_is_Some (visit_order model)) Hne) as [node Hlast].
  exists node. split; [done|].
  assert (Hleaf : IsLeafNode node = true).
  { apply IsLeafNode_spec.
    destruct (GetDependentNodes node) as [|d ds] eqn:Hds; [done|].
    exfalso. rewrite last_lookup in Hlast.
    destruct (Hdep _ node d Hlast) as (j & node' & Hij & Hj & _).
    { rewrite Hds. apply list_elem_of_here. }
    apply lookup_lt_Some in Hj. lia. }
  split; [done|].
  unfold CollectOutputNodes. rewrite CollectNodes_filter.
  apply last_Some in Hlast as [range Hrange]. rewrite Hrange.
  rewrite filter_app, filter_cons_True, filter_nil by done.
  apply last_snoc.
Qed.

(** X4. The two collections are not exclusive: a visited node of one of
    the two input classes that nothing consumes is returned both by
    [CollectInputNodes] and by [CollectOutputNodes]. *)
Theorem unconsumed_input_node_is_also_an_output model node :
  node ∈ visit_order model →
  typeid node = typeid_InputNode_double ∨ typeid node = typeid_InputNode_int →
  GetDependentNodes node = [] →
  node ∈ CollectInputNodes model ∧ node ∈ CollectOutputNodes model.
Proof.
  intros Hin Hclass Hdeps. split.
  - unfold CollectInputNodes. apply elem_of_CollectNodes.
    split; [by apply findNodes_spec | done].
  - unfold CollectOutputNodes. apply elem_of_CollectNodes.
    split; [|done]. apply IsLeafNode_spec. by rewrite Hdeps.
Qed.

End Collect_facts.

(** ** Counting ports *)

Lemma wrap64_range (z : Z) : 0 ≤ wrap64 z ≤ uint64_max.
Proof.
  unfold wrap64, uint64_max.
  pose proof (Z.mod_pos_bound z (2 ^ 64)). lia.
Qed.

Lemma wrap64_add_l (a b : Z) : wrap64 (wrap64 a + b) = wrap64 (a + b).
Proof. unfold wrap64. by rewrite Zplus_mod_idemp_l. Qed.

Lemma wrap64_add_r (a b : Z) : wrap64 (a + wrap64 b) = wrap64 (a + b).
Proof. unfold wrap64. by rewrite Zplus_mod_idemp_r. Qed.

Section Count_facts.
Context {PortType : Type}.
Implicit Types (nodes : list (Node PortType)).

(** The counting loop over any per-node size, started from a counter
    value that fits. *)
Lemma count_loop (size : Node PortType → nat) nodes (count : Z) :
  0 ≤ count ≤ uint64_max →
  foldl (λ count n, wrap64 (count + Z.of_nat (size n))) count nodes
  = wrap64 (count + foldr (λ n acc, Z.of_nat (size n) + acc) 0 nodes).
Proof.
  revert count. induction nodes as [|n nodes IH]; intros count Hc.
  - cbn. by rewrite Z.add_0_r, wrap64_small.
  - cbn [foldl foldr]. rewrite IH by apply wrap64_range.
    rewrite wrap64_add_l. f_equal. lia.
Qed.

Lemma total_nonneg (size : Node PortType → nat) nodes :
  0 ≤ foldr (λ n acc, Z.of_nat (size n) + acc) 0 nodes.
Proof. induction nodes; cbn; lia. Qed.

Lemma total_Permutation (size : Node PortType → nat) nodes nodes' :
  nodes ≡ₚ nodes' →
  foldr (λ n acc, Z.of_nat (size n) + acc) 0 nodes
  = foldr (λ n acc, Z.of_nat (size n) + acc) 0 nodes'.
Proof. induction 1; cbn; lia. Qed.

Lemma total_app (size : Node PortType → nat) nodes nodes' :
  foldr (λ n acc, Z.of_nat (size n) + acc) 0 (nodes ++ nodes')
  = foldr (λ n acc, Z.of_nat (size n) + acc) 0 nodes
    + foldr (λ n acc, Z.of_nat (size n) + acc) 0 nodes'.
Proof. induction nodes; cbn; lia. Qed.

Lemma CountOutputs_total nodes :
  CountOutputs nodes = wrap64 (total_outputs nodes).
Proof.
  unfold CountOutputs, total_outputs.
  rewrite (count_loop (λ n, length (GetOutputPorts n))); [done|].
  by vm_compute.
Qed.

Lemma CountInputs_total nodes :
  CountInputs nodes = wrap64 (total_inputs nodes).
Proof.
  unfold CountInputs, total_inputs.
  rewrite (count_loop (λ n, length (GetInputPorts n))); [done|].
  by vm_compute.
Qed.

(** X5. [CountOutputs] and [CountInputs] return the number of output
    (input) ports of the given nodes modulo [2^64], always a value in
    [0, 2^64 - 1]; when the true number fits in 64 bits they return it
    exactly, and for no nodes they return 0. *)
Theorem Count_is_the_port_total nodes :
  (CountOutputs nodes = wrap64 (total_outputs nodes)
   ∧ 0 ≤ CountOutputs nodes ≤ uint64_max
   ∧ (total_outputs nodes ≤ uint64_max →
      CountOutputs nodes = total_outputs nodes))
  ∧ (CountInputs nodes = wrap64 (total_inputs nodes)
     ∧ 0 ≤ CountInputs nodes ≤ uint64_max
     ∧ (total_inputs nodes ≤ uint64_max →
        CountInputs nodes = total_inputs nodes))
  ∧ CountOutputs (@nil (Node PortType)) = 0
  ∧ CountInputs (@nil (Node PortType)) = 0.
Proof.
  rewrite CountOutputs_total, CountInputs_total.
  repeat split; try apply wrap64_range.
  - intros Hfit. apply wrap64_small. split; [apply total_nonneg | done].
  - intros Hfit. apply wrap64_small. split; [apply total_nonneg | done].
Qed.

(** X6. The counts do not depend on the order in which the nodes are
    given: two lists that hold the same nodes, each as often, have the
    same [CountOutputs] and the same [CountInputs]. *)
Theorem Count_ignores_the_order nodes nodes' :
  nodes ≡ₚ nodes' →
  CountOutputs nodes = CountOutputs nodes'
  ∧ CountInputs nodes = CountInputs nodes'.
Proof.
  intros Hperm. rewrite !CountOutputs_total, !CountInputs_total.
  unfold total_outputs, total_inputs.
  by rewrite (total_Permutation _ _ _ Hperm),
             (total_Permutation (λ n, length (GetInputPorts n)) _ _ Hperm).
Qed.

(** X7. Counting a concatenation is adding the two counts, modulo
    [2^64]. *)
Theorem Count_of_a_concatenation nodes nodes' :
  CountOutputs (nodes ++ nodes')
  = wrap64 (CountOutputs nodes + CountOutputs nodes')
  ∧ CountInputs (nodes ++ nodes')
    = wrap64 (CountInputs nodes + CountInputs nodes').
Proof.
  rewrite !CountOutputs_total, !CountInputs_total.
  unfold total_outputs, total_inputs.
  rewrite !total_app, !wrap64_add_l, !wrap64_add_r. done.
Qed.

End Count_facts.

(** ** Port type checks *)

Section Verify_facts.
Context {PortType D : Type} `{!EqDecision PortType} `{!Backend PortType D}.
Implicit Types (c : Compiler PortType D) (node : Node PortType).

Lemma verify_scan_outcome (e : CompilerError) (ports : list (Port PortType))
    (type : PortType) c :
  (for_each ports
     (λ port, if decide (GetType port ≠ type) then throw e else mret tt) c).1
  = Returned tt
  ↔ Forall (λ port, GetType port = type) ports.
Proof. rewrite verify_scan. case_decide; naive_solver. Qed.

Lemma verify_scan_mixed (e : CompilerError) (ports : list (Port PortType))
    (p q : Port PortType) (type : PortType) c :
  p ∈ ports → q ∈ ports → GetType p ≠ GetType q →
  for_each ports
    (λ port, if decide (GetType port ≠ type) then throw e else mret tt) c
  = (Thrown e, c).
Proof.
  intros Hp Hq Hpq. rewrite verify_scan. case_decide as HF; [|done].
  rewrite Forall_forall in HF.
  destruct Hpq. by rewrite (HF p Hp), (HF q Hq).
Qed.

(** X8. A node whose output ports passed [VerifyOutputType] for a type
    and that has at least one output port has that type as its
    [GetNodeDataType]. *)
Theorem VerifyOutputType_fixes_GetNodeDataType node (type : PortType) c :
  (VerifyOutputType node type c).1 = Returned tt →
  GetOutputPorts node ≠ [] →
  GetNodeDataType node = Some type.
Proof.
  unfold VerifyOutputType, GetNodeDataType. cbv zeta.
  rewrite verify_scan_outcome. intros HF Hne.
  destruct (GetOutputPorts node) as [|port rest]; [done|].
  cbn. f_equal. by inversion HF.
Qed.

(** X9. A node with two input ports of different types fails
    [VerifyInputType] for every expected type, and a node with at least
    one input port passes it for at most one type; likewise for the
    output ports and [VerifyOutputType]. *)
Theorem Verify_accepts_one_type_at_most node c :
  ((∀ p q (type : PortType),
      p ∈ GetInputPorts node → q ∈ GetInputPorts node →
      GetType p ≠ GetType q →
      VerifyInputType node type c = (Thrown inputPortTypeNotSupported, c))
   ∧ (∀ type1 type2 : PortType,
        GetInputPorts node ≠ [] →
        (VerifyInputType node type1 c).1 = Returned tt →
        (VerifyInputType node type2 c).1 = Returned tt →
        type1 = type2))
  ∧ ((∀ p q (type : PortType),
        p ∈ GetOutputPorts node → q ∈ GetOutputPorts node →
        GetType p ≠ GetType q →
        VerifyOutputType node type c = (Thrown outputPortTypeNotSupported, c))
     ∧ (∀ type1 type2 : PortType,
          GetOutputPorts node ≠ [] →
          (VerifyOutputType node type1 c).1 = Returned tt →
          (VerifyOutputType node type2 c).1 = Returned tt →
          type1 = type2)).
Proof.
  unfold VerifyInputType, VerifyOutputType. cbv zeta.
  split; (split; [intros p q type; apply verify_scan_mixed|]).
  - intros type1 type2 Hne H1%verify_scan_outcome H2%verify_scan_outcome.
    destruct (GetInputPorts node) as [|port rest]; [done|].
    inversion H1; inversion H2; congruence.
  - intros type1 type2 Hne H1%verify_scan_outcome H2%verify_scan_outcome.
    destruct (GetOutputPorts node) as [|port rest]; [done|].
    inversion H1; inversion H2; congruence.
Qed.

(** X10. The two checks only read: whether they return or throw, the
    compiler object is left as it was, and what they answer does not
    depend on the object they are called on. *)
Theorem Verify_only_reads node (type : PortType) c c' :
  (VerifyInputType node type c).2 = c
  ∧ (VerifyOutputType node type c).2 = c
  ∧ (VerifyInputType node type c).1 = (VerifyInputType node type c').1
  ∧ (VerifyOutputType node type c).1 = (VerifyOutputType node type c').1.
Proof.
  unfold VerifyInputType, VerifyOutputType. cbv zeta.
  rewrite !verify_scan. repeat split; by repeat case_decide.
Qed.

End Verify_facts.

(** ** Global identifiers, from any counter value *)

Section AllocGlobal_facts.
Context {PortType D : Type} `{!EqDecision PortType} `{!Backend PortType D}.
Implicit Types (c : Compiler PortType D).

Lemma set_globalVars_same c : set_globalVars (_globalVars c) c = c.
Proof. by destruct c. Qed.

Lemma set_globalVars_twice (g g' : Z) c :
  set_globalVars g' (set_globalVars g c) = set_globalVars g' c.
Proof. done. Qed.

Lemma AllocGlobal_times_final (n : nat) c :
  0 ≤ _globalVars c ≤ uint64_max →
  (AllocGlobal_times n c).2
  = set_globalVars (wrap64 (_globalVars c + Z.of_nat n)) c.
Proof.
  revert c. induction n as [|n IH]; intros c Hc.
  - cbn [AllocGlobal_times snd]. rewrite Z.add_0_r, wrap64_small by done.
    by rewrite set_globalVars_same.
  - cbn [AllocGlobal_times AllocGlobal].
    pose proof (IH (set_globalVars (wrap64 (_globalVars c + 1)) c)) as IH'.
    destruct (AllocGlobal_times n _) as [ids c2]. cbn [snd] in *.
    rewrite IH' by apply wrap64_range.
    cbn [_globalVars set_globalVars]. rewrite set_globalVars_twice.
    f_equal. rewrite wrap64_add_l. f_equal. lia.
Qed.

(** X11. One call of [AllocGlobal] on a counter that holds a 64-bit
    value never throws, returns the new value of the counter, and
    writes no other member.  The value is the old one plus 1, except
    at [2^64 - 1], where it is 0; so 0 is returned exactly there. *)
Theorem AllocGlobal_one_call c :
  0 ≤ _globalVars c ≤ uint64_max →
  ∃ id, AllocGlobal c = (Returned id, set_globalVars id c)
        ∧ 0 ≤ id ≤ uint64_max
        ∧ (_globalVars c < uint64_max → id = _globalVars c + 1)
        ∧ (id = 0 ↔ _globalVars c = uint64_max).
Proof.
  intros Hc. exists (wrap64 (_globalVars c + 1)).
  split; [done|]. split; [apply wrap64_range|].
  assert (Hstep : _globalVars c < uint64_max →
                  wrap64 (_globalVars c + 1) = _globalVars c + 1).
  { intros Hlt. apply wrap64_small. lia. }
  split; [done|]. split.
  - intros Hz. destruct (decide (_globalVars c < uint64_max)) as [Hlt|Hge].
    + rewrite Hstep in Hz by done. lia.
    + lia.
  - intros ->. by vm_compute.
Qed.

(** X12. [n] calls in a row, from any counter value [g]: call number
    [k] returns [(g + k) mod 2^64], and afterwards the counter holds
    [(g + n) mod 2^64] while every other member is as before. *)
Theorem AllocGlobal_times_from_any_counter (n : nat) c :
  0 ≤ _globalVars c ≤ uint64_max →
  (AllocGlobal_times n c).1
  = (λ k : nat, wrap64 (_globalVars c + Z.of_nat k + 1)) <$> seq 0 n
  ∧ (AllocGlobal_times n c).2
    = set_globalVars (wrap64 (_globalVars c + Z.of_nat n)) c.
Proof.
  intros Hc. split; [|by apply AllocGlobal_times_final].
  apply list_eq. intros k.
  destruct (decide (k < n)%nat) as [Hlt|Hge].
  - rewrite AllocGlobal_times_lookup by done.
    rewrite list_lookup_fmap, lookup_seq_lt by done. done.
  - rewrite !lookup_ge_None_2; [done| |].
    + rewrite length_fmap, length_seq. lia.
    + rewrite AllocGlobal_times_length. lia.
Qed.

(** X13. [Reset] does not rewind the counter: an identifier allocated
    after [Reset] is the successor, modulo [2^64], of the one allocated
    before it, and differs from it. *)
Theorem AllocGlobal_continues_after_Reset c :
  ∃ id1 id2,
    (id1 ← AllocGlobal; Reset;; id2 ← AllocGlobal; mret (id1, id2)) c
    = (Returned (id1, id2), set_globalVars id2 c)
    ∧ id1 = wrap64 (_globalVars c + 1)
    ∧ id2 = wrap64 (id1 + 1)
    ∧ id2 ≠ id1.
Proof.
  exists (wrap64 (_globalVars c + 1)),
         (wrap64 (wrap64 (_globalVars c + 1) + 1)).
  split; [done|]. split; [done|]. split; [done|].
  pose proof (wrap64_range (_globalVars c + 1)) as Hr.
  unfold uint64_max in Hr. unfold wrap64 at 1.
  set (x := wrap64 (_globalVars c + 1)) in *.
  destruct (decide (x + 1 < 2 ^ 64)) as [Hlt|Hge].
  - rewrite Z.mod_small by lia. lia.
  - assert (x + 1 = 2 ^ 64) as -> by lia.
    rewrite Z.mod_same by lia. lia.
Qed.

End AllocGlobal_facts.

(** ** Compilation when a hook throws *)

Section Compile_facts.
Context {PortType D : Type} `{!EqDecision PortType} `{!Backend PortType D}.
Implicit Types (c : Compiler PortType D) (model : Model PortType).

(** [CompileModel] up to its first hook. *)
Lemma CompileModel_stores_then_brackets model c :
  CompileModel model c
  = (BeginMain c_PredictFunctionName ≫= λ _, EndMain)
      (mkCompiler (_nodeTypes c) (_globalVars c)
         (CollectInputNodes model) (CollectOutputNodes model) (derived c)).
Proof. done. Qed.

(** X14. An error thrown by a hook of [CompileModel] comes out of
    [CompileModel] unchanged.  When [BeginMain] throws, [EndMain] does
    not run, and the object is as [BeginMain] left it; [BeginMain] had
    received it with the collected input and output nodes already
    stored.  When [EndMain] throws, the object is as [EndMain] left
    it. *)
Theorem CompileModel_passes_on_a_hook_error model c e c1 :
  let stored :=
    mkCompiler (_nodeTypes c) (_globalVars c)
      (CollectInputNodes model) (CollectOutputNodes model) (derived c) in
  (BeginMain "Predict" stored = (Thrown e, c1) →
   CompileModel model c = (Thrown e, c1))
  ∧ (∀ c2, BeginMain "Predict" stored = (Returned tt, c1) →
           EndMain c1 = (Thrown e, c2) →
           CompileModel model c = (Thrown e, c2)).
Proof.
  intros stored. rewrite CompileModel_stores_then_brackets.
  fold stored. unfold c_PredictFunctionName. split.
  - intros HB. by apply bind_Thrown.
  - intros c2 HB HE. by rewrite (bind_Returned _ _ _ _ _ HB).
Qed.

(** X15. An error thrown by a hook of [CompileNode] comes out of
    [CompileNode] unchanged.  When [BeginMain] throws, the kind of the
    node is not looked at: also a node that is not a literal gets the
    error of [BeginMain], not [notSupported].  When the lowering of a
    literal throws, [EndMain] does not run.  When [EndMain] throws
    after the lowering of a literal, its error is the outcome. *)
Theorem CompileNode_passes_on_a_hook_error (dnode : DataNode) c e c1 :
  (BeginMain "Predict" c = (Thrown e, c1) →
   CompileNode dnode c = (Thrown e, c1))
  ∧ (∀ c2, Type_ dnode = Literal →
           BeginMain "Predict" c = (Returned tt, c1) →
           Compile dnode c1 = (Thrown e, c2) →
           CompileNode dnode c = (Thrown e, c2))
  ∧ (∀ c2 c3, Type_ dnode = Literal →
              BeginMain "Predict" c = (Returned tt, c1) →
              Compile dnode c1 = (Returned tt, c2) →
              EndMain c2 = (Thrown e, c3) →
              CompileNode dnode c = (Thrown e, c3)).
Proof.
  split; [|split].
  - intros HB. unfold CompileNode. by apply bind_Thrown.
  - intros c2 HL HB HC.
    rewrite (CompileNode_after_BeginMain _ _ _ HB), HL.
    by apply bind_Thrown.
  - intros c2 c3 HL HB HC HE.
    rewrite (CompileNode_after_BeginMain _ _ _ HB), HL.
    by rewrite (bind_Returned _ _ _ _ _ HC).
Qed.

(** X16. [CompileModel] overwrites what an earlier compilation stored:
    two objects that agree on the type table, the counter and the state
    of the subclass give the same outcome and the same final object,
    whatever input and output nodes each held before. *)
Theorem CompileModel_forgets_the_previous_nodes model c c' :
  _nodeTypes c = _nodeTypes c' →
  _globalVars c = _globalVars c' →
  derived c = derived c' →
  CompileModel model c = CompileModel model c'.
Proof.
  intros Ht Hg Hd. rewrite !CompileModel_stores_then_brackets.
  by rewrite Ht, Hg, Hd.
Qed.

End Compile_facts.

(** ** Compilation as the recording backend sees it *)

Lemma session_open_snoc (calls : list HookCall) (h : HookCall) :
  session_open (calls ++ [h])
  = match h with
    | CallBeginMain _ => true
    | CallEndMain => false
    | CallCompile _ => session_open calls
    end.
Proof. unfold session_open. by rewrite foldl_app. Qed.

(** X17. On the recording backend, for every model and every object:
    [CompileModel] returns; the calls it makes are [BeginMain "Predict"]
    and [EndMain], in this order, and no lowering; it leaves the entry
    point closed, the type table and the counter as they were, and the
    collected nodes of this model in place of the earlier ones. *)
Theorem CompileModel_on_the_recording_backend (model : Model string)
    (c : Compiler string (list HookCall)) :
  ∃ c', CompileModel model c = (Returned tt, c')
        ∧ derived c' = derived c ++ [CallBeginMain "Predict"; CallEndMain]
        ∧ session_open (derived c') = false
        ∧ _inputs c' = CollectInputNodes model
        ∧ _outputs c' = CollectOutputNodes model
        ∧ _nodeTypes c' = _nodeTypes c
        ∧ _globalVars c' = _globalVars c.
Proof.
  eexists. split; [apply CompileModel_recorded|]. cbn.
  repeat split.
  change [CallBeginMain "Predict"; CallEndMain]
    with ([CallBeginMain "Predict"] ++ [CallEndMain]).
  by rewrite app_assoc, session_open_snoc.
Qed.

(** X18. On the recording backend, for every data node and every
    object: [CompileNode] first calls [BeginMain "Predict"]; for a
    literal it then calls the lowering with that node and [EndMain],
    and returns with the entry point closed; for any other node it
    calls nothing more and throws [notSupported] with the entry point
    open.  In both cases the type table, the counter and the stored
    nodes are untouched. *)
Theorem CompileNode_on_the_recording_backend (dnode : DataNode)
    (c : Compiler string (list HookCall)) :
  ∃ c', _nodeTypes c' = _nodeTypes c
        ∧ _globalVars c' = _globalVars c
        ∧ _inputs c' = _inputs c
        ∧ _outputs c' = _outputs c
        ∧ match Type_ dnode with
          | Literal =>
              CompileNode dnode c = (Returned tt, c')
              ∧ derived c'
                = derived c
                  ++ [CallBeginMain "Predict"; CallCompile dnode; CallEndMain]
              ∧ session_open (derived c') = false
          | OtherDataNodeType _ =>
              CompileNode dnode c = (Thrown notSupported, c')
              ∧ derived c' = derived c ++ [CallBeginMain "Predict"]
              ∧ session_open (derived c') = true
          end.
Proof.
  destruct dnode as [[|tag] id].
  - eexists (mkCompiler _ _ _ _
               (derived c ++ [CallBeginMain "Predict";
                              CallCompile (mkDataNode Literal id);
                              CallEndMain])).
    cbn [_nodeTypes _globalVars _inputs _outputs derived Type_].
    repeat split.
    + unfold CompileNode, mbind, M_bind. cbn.
      unfold record_call, modify. cbn. by rewrite <- !app_assoc.
    + change [CallBeginMain "Predict"; CallCompile (mkDataNode Literal id);
              CallEndMain]
        with ([CallBeginMain "Predict"; CallCompile (mkDataNode Literal id)]
              ++ [CallEndMain]).
      by rewrite app_assoc, session_open_snoc.
  - eexists (mkCompiler _ _ _ _ (derived c ++ [CallBeginMain "Predict"])).
    cbn [_nodeTypes _globalVars _inputs _outputs derived Type_].
    repeat split. by rewrite session_open_snoc.
Qed.

(** ** The further properties on sample objects *)

Lemma model_ABC_NoDup : NoDup (visit_order model_ABC).
Proof.
  apply NoDup_ListNoDup. repeat constructor; cbn; intuition discriminate.
Qed.

Lemma model_ABC_dependents_visited_later :
  dependents_visited_later model_ABC.
Proof.
  intros i node d Hi Hd.
  destruct i as [|[|[|i]]]; cbn in Hi; try discriminate;
    injection Hi as <-; cbn in Hd.
  - apply list_elem_of_singleton in Hd as ->.
    exists 2%nat, node_C. repeat split. lia.
  - apply list_elem_of_singleton in Hd as ->.
    exists 2%nat, node_C. repeat split. lia.
  - by apply elem_of_nil in Hd.
Qed.

Lemma CollectNodes_keeps_visit_order_witness :
  NoDup (visit_order model_ABC)
  ∧ NoDup (CollectNodes model_ABC IsLeafNode).
Proof.
  split; [exact model_ABC_NoDup|].
  exact (proj2 (proj2 (proj2
    (CollectNodes_keeps_visit_order model_ABC IsLeafNode)))
    model_ABC_NoDup).
Defined.

Lemma CollectNodes_splits_the_model_witness :
  node_C ∈ CollectNodes model_ABC IsLeafNode
  ∧ node_C ∉ CollectNodes model_ABC (λ node, negb (IsLeafNode node)).
Proof.
  assert (H : node_C ∈ CollectNodes model_ABC IsLeafNode)
    by apply list_elem_of_here.
  split; [exact H|].
  exact (proj2 (CollectNodes_splits_the_model model_ABC IsLeafNode) node_C H).
Defined.

Lemma CollectOutputNodes_has_the_last_node_witness :
  visit_order model_ABC ≠ []
  ∧ dependents_visited_later model_ABC
  ∧ ∃ node, last (visit_order model_ABC) = Some node
            ∧ IsLeafNode node = true
            ∧ last (CollectOutputNodes model_ABC) = Some node.
Proof.
  assert (H1 : visit_order model_ABC ≠ []) by (cbn; discriminate).
  split; [exact H1|]. split; [exact model_ABC_dependents_visited_later|].
  exact (CollectOutputNodes_has_the_last_node model_ABC H1
           model_ABC_dependents_visited_later).
Defined.

Lemma unconsumed_input_node_is_also_an_output_witness :
  sample_input_node ∈ visit_order sample_input_model
  ∧ (typeid sample_input_node = typeid_InputNode_double
     ∨ typeid sample_input_node = typeid_InputNode_int)
  ∧ GetDependentNodes sample_input_node = []
  ∧ sample_input_node ∈ CollectInputNodes sample_input_model
  ∧ sample_input_node ∈ CollectOutputNodes sample_input_model.
Proof.
  assert (H1 : sample_input_node ∈ visit_order sample_input_model)
    by apply list_elem_of_here.
  assert (H2 : typeid sample_input_node = typeid_InputNode_double
               ∨ typeid sample_input_node = typeid_InputNode_int)
    by (left; reflexivity).
  assert (H3 : GetDependentNodes sample_input_node = []) by reflexivity.
  split; [exact H1|]. split; [exact H2|]. split; [exact H3|].
  exact (unconsumed_input_node_is_also_an_output
           sample_input_model sample_input_node H1 H2 H3).
Defined.

(** The sample graph has three output ports and two input ports. *)
Example model_ABC_counts :
  CountOutputs (visit_order model_ABC) = 3
  ∧ CountInputs (visit_order model_ABC) = 2.
Proof. split; reflexivity. Qed.

Lemma Count_is_the_port_total_witness :
  total_outputs (visit_order model_ABC) ≤ uint64_max
  ∧ CountOutputs (visit_order model_ABC)
    = total_outputs (visit_order model_ABC)
  ∧ total_inputs (visit_order model_ABC) ≤ uint64_max
  ∧ CountInputs (visit_order model_ABC)
    = total_inputs (visit_order model_ABC).
Proof.
  assert (H1 : total_outputs (visit_order model_ABC) ≤ uint64_max)
    by (vm_compute; discriminate).
  assert (H2 : total_inputs (visit_order model_ABC) ≤ uint64_max)
    by (vm_compute; discriminate).
  split; [exact H1|]. split.
  - exact (proj2 (proj2 (proj1
      (Count_is_the_port_total (visit_order model_ABC)))) H1).
  - split; [exact H2|].
    exact (proj2 (proj2 (proj1 (proj2
      (Count_is_the_port_total (visit_order model_ABC))))) H2).
Defined.

Lemma Count_ignores_the_order_witness :
  [node_A; node_C] ≡ₚ [node_C; node_A]
  ∧ CountOutputs [node_A; node_C] = CountOutputs [node_C; node_A]
  ∧ CountInputs [node_A; node_C] = CountInputs [node_C; node_A].
Proof.
  assert (H : [node_A; node_C] ≡ₚ [node_C; node_A]) by apply perm_swap.
  split; [exact H|].
  exact (Count_ignores_the_order [node_A; node_C] [node_C; node_A] H).
Defined.

Lemma VerifyOutputType_fixes_GetNodeDataType_witness :
  (VerifyOutputType node_C "double" new_recording_Compiler).1 = Returned tt
  ∧ GetOutputPorts node_C ≠ []
  ∧ GetNodeDataType node_C = Some "double".
Proof.
  assert (H1 : (VerifyOutputType node_C "double" new_recording_Compiler).1
               = Returned tt) by reflexivity.
  assert (H2 : GetOutputPorts node_C ≠ []) by (cbn; discriminate).
  split; [exact H1|]. split; [exact H2|].
  exact (VerifyOutputType_fixes_GetNodeDataType node_C "double"
           new_recording_Compiler H1 H2).
Defined.

Lemma Verify_accepts_one_type_at_most_witness :
  mkPort "double" ∈ GetInputPorts node_mixed
  ∧ mkPort "int" ∈ GetInputPorts node_mixed
  ∧ GetType (mkPort "double") ≠ GetType (mkPort "int")
  ∧ VerifyInputType node_mixed "double" new_recording_Compiler
    = (Thrown inputPortTypeNotSupported, new_recording_Compiler)
  ∧ VerifyInputType node_mixed "int" new_recording_Compiler
    = (Thrown inputPortTypeNotSupported, new_recording_Compiler).
Proof.
  assert (H1 : mkPort "double" ∈ GetInputPorts node_mixed)
    by apply list_elem_of_here.
  assert (H2 : mkPort "int" ∈ GetInputPorts node_mixed)
    by (apply list_elem_of_further, list_elem_of_here).
  assert (H3 : GetType (mkPort "double") ≠ GetType (mkPort "int"))
    by (cbn; discriminate).
  split; [exact H1|]. split; [exact H2|]. split; [exact H3|]. split.
  - exact (proj1 (proj1
      (Verify_accepts_one_type_at_most node_mixed new_recording_Compiler))
      _ _ "double" H1 H2 H3).
  - exact (proj1 (proj1
      (Verify_accepts_one_type_at_most node_mixed new_recording_Compiler))
      _ _ "int" H1 H2 H3).
Defined.

Lemma AllocGlobal_one_call_witness :
  0 ≤ _globalVars new_recording_Compiler ≤ uint64_max
  ∧ ∃ id, AllocGlobal new_recording_Compiler
          = (Returned id, set_globalVars id new_recording_Compiler)
          ∧ 0 ≤ id ≤ uint64_max
          ∧ (_globalVars new_recording_Compiler < uint64_max →
             id = _globalVars new_recording_Compiler + 1)
          ∧ (id = 0 ↔ _globalVars new_recording_Compiler = uint64_max).
Proof.
  assert (H : 0 ≤ _globalVars new_recording_Compiler ≤ uint64_max)
    by (vm_compute; split; discriminate).
  split; [exact H|].
  exact (AllocGlobal_one_call new_recording_Compiler H).
Defined.

(** At the last 64-bit value the next identifier is 0. *)
Example AllocGlobal_at_uint64_max :
  (AllocGlobal (set_globalVars uint64_max new_recording_Compiler)).1
  = Returned 0.
Proof. reflexivity. Qed.

Lemma AllocGlobal_times_from_any_counter_witness :
  let c := set_globalVars (uint64_max - 1) new_recording_Compiler in
  0 ≤ _globalVars c ≤ uint64_max
  ∧ (AllocGlobal_times 3 c).1
    = (λ k : nat, wrap64 (_globalVars c + Z.of_nat k + 1)) <$> seq 0 3
  ∧ (AllocGlobal_times 3 c).2
    = set_globalVars (wrap64 (_globalVars c + Z.of_nat 3)) c.
Proof.
  intros c.
  assert (H : 0 ≤ _globalVars c ≤ uint64_max)
    by (vm_compute; split; discriminate).
  split; [exact H|].
  exact (AllocGlobal_times_from_any_counter 3 c H).
Defined.

(** Three calls across the wrap-around. *)
Example AllocGlobal_across_uint64_max :
  (AllocGlobal_times 3
     (set_globalVars (uint64_max - 1) new_recording_Compiler)).1
  = [uint64_max; 0; 1].
Proof. reflexivity. Qed.

Lemma CompileModel_passes_on_a_hook_error_witness :
  let stored (calls : nat) :=
    mkCompiler (_nodeTypes (new_budget_Compiler calls)) 0
      (CollectInputNodes model_ABC) (CollectOutputNodes model_ABC) calls in
  (BeginMain "Predict" (stored 0%nat) = (Thrown notSupported, stored 0%nat)
   ∧ CompileModel model_ABC (new_budget_Compiler 0)
     = (Thrown notSupported, stored 0%nat))
  ∧ (BeginMain "Predict" (stored 1%nat) = (Returned tt, stored 0%nat)
     ∧ EndMain (stored 0%nat) = (Thrown notSupported, stored 0%nat)
     ∧ CompileModel model_ABC (new_budget_Compiler 1)
       = (Thrown notSupported, stored 0%nat)).
Proof.
  intros stored.
  assert (H0 : BeginMain "Predict" (stored 0%nat)
               = (Thrown notSupported, stored 0%nat)) by reflexivity.
  assert (H1 : BeginMain "Predict" (stored 1%nat)
               = (Returned tt, stored 0%nat)) by reflexivity.
  assert (H2 : EndMain (stored 0%nat) = (Thrown notSupported, stored 0%nat))
    by reflexivity.
  split.
  - split; [exact H0|].
    exact (proj1 (CompileModel_passes_on_a_hook_error model_ABC
                    (new_budget_Compiler 0) notSupported (stored 0%nat)) H0).
  - split; [exact H1|]. split; [exact H2|].
    exact (proj2 (CompileModel_passes_on_a_hook_error model_ABC
                    (new_budget_Compiler 1) notSupported (stored 0%nat))
             (stored 0%nat) H1 H2).
Defined.

Lemma CompileNode_passes_on_a_hook_error_witness :
  (BeginMain "Predict" (new_budget_Compiler 0)
   = (Thrown notSupported, new_budget_Compiler 0)
   ∧ CompileNode non_literal_node (new_budget_Compiler 0)
     = (Thrown notSupported, new_budget_Compiler 0))
  ∧ (Type_ literal_node = Literal
     ∧ BeginMain "Predict" (new_budget_Compiler 1)
       = (Returned tt, new_budget_Compiler 0)
     ∧ Compile literal_node (new_budget_Compiler 0)
       = (Thrown notSupported, new_budget_Compiler 0)
     ∧ CompileNode literal_node (new_budget_Compiler 1)
       = (Thrown notSupported, new_budget_Compiler 0))
  ∧ (BeginMain "Predict" (new_budget_Compiler 2)
     = (Returned tt, new_budget_Compiler 1)
     ∧ Compile literal_node (new_budget_Compiler 1)
       = (Returned tt, new_budget_Compiler 0)
     ∧ EndMain (new_budget_Compiler 0)
       = (Thrown notSupported, new_budget_Compiler 0)
     ∧ CompileNode literal_node (new_budget_Compiler 2)
       = (Thrown notSupported, new_budget_Compiler 0)).
Proof.
  assert (HL : Type_ literal_node = Literal) by reflexivity.
  assert (HB0 : BeginMain "Predict" (new_budget_Compiler 0)
                = (Thrown notSupported, new_budget_Compiler 0))
    by reflexivity.
  assert (HB1 : BeginMain "Predict" (new_budget_Compiler 1)
                = (Returned tt, new_budget_Compiler 0)) by reflexivity.
  assert (HB2 : BeginMain "Predict" (new_budget_Compiler 2)
                = (Returned tt, new_budget_Compiler 1)) by reflexivity.
  assert (HC0 : Compile literal_node (new_budget_Compiler 0)
                = (Thrown notSupported, new_budget_Compiler 0))
    by reflexivity.
  assert (HC1 : Compile literal_node (new_budget_Compiler 1)
                = (Returned tt, new_budget_Compiler 0)) by reflexivity.
  assert (HE0 : EndMain (new_budget_Compiler 0)
                = (Thrown notSupported, new_budget_Compiler 0))
    by reflexivity.
  split; [|split].
  - split; [exact HB0|].
    exact (proj1 (CompileNode_passes_on_a_hook_error non_literal_node
                    (new_budget_Compiler 0) notSupported
                    (new_budget_Compiler 0)) HB0).
  - split; [exact HL|]. split; [exact HB1|]. split; [exact HC0|].
    exact (proj1 (proj2 (CompileNode_passes_on_a_hook_error literal_node
                    (new_budget_Compiler 1) notSupported
                    (new_budget_Compiler 0)))
             (new_budget_Compiler 0) HL HB1 HC0).
  - split; [exact HB2|]. split; [exact HC1|]. split; [exact HE0|].
    exact (proj2 (proj2 (CompileNode_passes_on_a_hook_error literal_node
                    (new_budget_Compiler 2) notSupported
                    (new_budget_Compiler 1)))
             (new_budget_Compiler 0) (new_budget_Compiler 0)
             HL HB2 HC1 HE0).
Defined.

Lemma CompileModel_forgets_the_previous_nodes_witness :
  let c := new_recording_Compiler in
  let c' := mkCompiler (_nodeTypes c) (_globalVars c)
              [node_B] [node_A; node_B] (derived c) in
  _nodeTypes c = _nodeTypes c'
  ∧ _globalVars c = _globalVars c'
  ∧ derived c = derived c'
  ∧ CompileModel model_ABC c = CompileModel model_ABC c'.
Proof.
  intros c c'.
  split; [reflexivity|]. split; [reflexivity|]. split; [reflexivity|].
  exact (CompileModel_forgets_the_previous_nodes model_ABC c c'
           eq_refl eq_refl eq_refl).
Defined.
